(** * MedTrack analytics: the ETL pipeline and the data quality monitor

    A shallow embedding of [app/pipeline/data_pipeline.py]
    (class [PharmaDataPipeline]) and [app/pipeline/data_quality.py]
    (class [DataQualityMonitor]).

    Conventions of the embedding:
    - a pandas [DataFrame] is a list of column names and a list of rows, a
      row being a finite map from column name to cell; frames in which two
      columns carry the same name after renaming are outside the model
      (the row keeps the cell of the leftmost such column);
    - Python floats are exact rationals ([Q]); infinities are not
      represented;
    - timestamps are integers (seconds since the epoch), dates of the
      canonical store are day numbers;
    - a Python exception is the [Raise] outcome of the [result] monad;
    - logging and the report files written to disk are left out. *)

From Stdlib Require Import ZArith QArith Qround String Ascii List Bool Lia.
From stdpp Require Import base option list gmap strings.

Open Scope Z_scope.
Open Scope string_scope.

(** ** Exceptions and the result monad *)

Inductive exn : Type :=
  | KeyError (key : string)
  | ValueError
  | TypeError
  | AttributeError
  | IntCastingNaNError
  | DatabaseError.

Inductive result (A : Type) : Type :=
  | Ok (a : A)
  | Raise (e : exn).

Arguments Ok {A} a.
Arguments Raise {A} e.

#[global] Instance result_ret : MRet result := fun A a => Ok a.

#[global] Instance result_bind : MBind result := fun A B f m =>
  match m with
  | Ok a => f a
  | Raise e => Raise e
  end.

#[global] Instance result_fmap : FMap result := fun A B f m =>
  match m with
  | Ok a => Ok (f a)
  | Raise e => Raise e
  end.

(** ** Cells, rows and frames *)

Inductive number : Type :=
  | NInt (z : Z)
  | NFloat (q : Q).

(** [NA] stands for NaN, None and NaT alike, as [isna] does. *)
Inductive cell : Type :=
  | NA
  | Int (z : Z)
  | Float (q : Q)
  | Str (s : string)
  | Timestamp (t : Z).

Abbreviation row := (gmap string cell).

Record DataFrame : Type := mkFrame {
  columns : list string;
  rows : list row;
}.

(** What the code takes from pandas and does not define itself: the parsers
    behind [pd.to_numeric] and [pd.to_datetime], and the calendar accessors
    of [Series.dt]. *)
Class Pandas : Type := {
  parse_number : string → option number;
  parse_datetime : string → option Z;
  dt_year : Z → Z;
  dt_month : Z → Z;
  dt_day : Z → Z;
  dt_day_name : Z → string;
}.

Definition isna (c : cell) : bool :=
  match c with NA => true | _ => false end.

Definition notna (c : cell) : bool := negb (isna c).

Definition cell_at (r : row) (c : string) : cell := default NA (r !! c).

Definition has_col (df : DataFrame) (c : string) : bool :=
  bool_decide (c ∈ columns df).


(** [df[c]]: the column as a list of cells, [KeyError] when absent. *)
Definition series (df : DataFrame) (c : string) : result (list cell) :=
  if has_col df c then Ok ((λ r, cell_at r c) <$> rows df)
  else Raise (KeyError c).

(** [df[c] = f(row)]: overwrite the column in place, or add it on the
    right when the frame does not have it. *)
Definition assign (df : DataFrame) (c : string) (f : row → cell) : DataFrame :=
  {| columns := if has_col df c then columns df else columns df ++ [c];
     rows := (λ r, <[c := f r]> r) <$> rows df |}.

(** [df[c] = [v0, v1, ...]]: assignment of a list, by position. *)
Definition assign_indexed (df : DataFrame) (c : string) (f : nat → cell)
  : DataFrame :=
  {| columns := if has_col df c then columns df else columns df ++ [c];
     rows := imap (λ i r, <[c := f i]> r) (rows df) |}.

(** [df[mask]] with a row-wise mask. *)
Definition select (df : DataFrame) (mask : row → bool) : DataFrame :=
  {| columns := columns df; rows := List.filter mask (rows df) |}.

(** [column_mapping.get(col, col)] *)
Fixpoint mapping_get (m : list (string * string)) (col : string) : string :=
  match m with
  | [] => col
  | (k, v) :: m' => if String.eqb k col then v else mapping_get m' col
  end.

Definition rename_row (m : list (string * string)) (cols : list string)
    (r : row) : row :=
  foldr (λ c acc, <[mapping_get m c := cell_at r c]> acc) ∅ cols.

(** [df.columns = [column_mapping.get(col, col) for col in df.columns]] *)
Definition set_columns (m : list (string * string)) (df : DataFrame)
  : DataFrame :=
  {| columns := mapping_get m <$> columns df;
     rows := rename_row m (columns df) <$> rows df |}.

Definition first_missing (df : DataFrame) (subset : list string)
  : option string :=
  List.find (λ c, negb (has_col df c)) subset.

Definition complete_on (subset : list string) (r : row) : bool :=
  forallb (λ c, notna (cell_at r c)) subset.

(** [df.dropna(subset=...)]: [KeyError] when a listed column is absent,
    else the rows without a null in the listed columns. *)
Definition dropna (subset : list string) (df : DataFrame) : result DataFrame :=
  match first_missing df subset with
  | Some c => Raise (KeyError c)
  | None => Ok (select df (complete_on subset))
  end.

(** ** Coercions *)

Definition cell_of_number (n : number) : cell :=
  match n with NInt z => Int z | NFloat q => Float q end.

Definition Qtruncate (q : Q) : Z :=
  if Qle_bool 0 q then Qfloor q else Qceiling q.

Section Coercions.
Context `{!Pandas}.

(** [pd.to_numeric(..., errors='coerce')], cell by cell *)
Definition to_numeric (c : cell) : cell :=
  match c with
  | NA => NA
  | Int z => Int z
  | Float q => Float q
  | Str s => from_option cell_of_number NA (parse_number s)
  | Timestamp t => Int (t * 1000000000)
  end.

(** [pd.to_datetime(..., errors='coerce')], cell by cell; numbers are
    nanoseconds since the epoch. *)
Definition to_datetime (c : cell) : cell :=
  match c with
  | NA => NA
  | Int z => Timestamp (z `div` 1000000000)
  | Float q => Timestamp (Qfloor q `div` 1000000000)
  | Str s => from_option Timestamp NA (parse_datetime s)
  | Timestamp t => Timestamp t
  end.
End Coercions.

Definition fillna (v : cell) (c : cell) : cell :=
  if isna c then v else c.

(** [astype(int)] of one non-null numeric cell (floats are truncated). *)
Definition int_of_cell (c : cell) : cell :=
  match c with
  | Float q => Int (Qtruncate q)
  | _ => c
  end.

(** [Series.astype(int)]: refuses a column that holds a null. *)
Definition astype_int (col : list cell) : result (list cell) :=
  if forallb notna col then Ok (int_of_cell <$> col)
  else Raise IntCastingNaNError.

Definition Q_of_cell (c : cell) : option Q :=
  match c with
  | Int z => Some (inject_Z z)
  | Float q => Some q
  | _ => None
  end.

(** Product of two numeric cells; null when either is. *)
Definition mul_cell (a b : cell) : cell :=
  match a, b with
  | Int x, Int y => Int (x * y)
  | _, _ =>
      match Q_of_cell a, Q_of_cell b with
      | Some x, Some y => Float (x * y)
      | _, _ => NA
      end
  end.

(** [series > 0], null compares false *)
Definition gt_zero (c : cell) : bool :=
  match c with
  | Int z => bool_decide (0 < z)
  | Float q => negb (Qle_bool q 0)
  | _ => false
  end.

(** [(a - b).dt.days] on timestamps in seconds *)
Definition days_between (a : cell) (b : Z) : cell :=
  match a with
  | Timestamp t => Int ((t - b) `div` 86400)
  | _ => NA
  end.

(** [Series.dt.<part>]: null on NaT *)
Definition dt_part (f : Z → cell) (c : cell) : cell :=
  match c with
  | Timestamp t => f t
  | _ => NA
  end.

(** The [.str] accessor is refused on a column whose inferred type is not
    string-like: here, a non-empty column without any string. *)
Definition is_str (c : cell) : bool :=
  match c with Str _ => true | _ => false end.

Definition str_accessor (col : list cell) : result unit :=
  if bool_decide (col = []) || existsb is_str col then Ok ()
  else Raise AttributeError.

Definition upper_ascii (a : ascii) : ascii :=
  let n := nat_of_ascii a in
  if (Nat.leb 97 n && Nat.leb n 122)%bool then ascii_of_nat (n - 32) else a.

Fixpoint str_upper (s : string) : string :=
  match s with
  | EmptyString => EmptyString
  | String a s' => String (upper_ascii a) (str_upper s')
  end.

Fixpoint str_contains_char (a : ascii) (s : string) : bool :=
  match s with
  | EmptyString => false
  | String b s' => Ascii.eqb a b || str_contains_char a s'
  end.

(** [Series.str.contains('@', na=False)] *)
Definition contains_at (c : cell) : bool :=
  match c with
  | Str s => str_contains_char "@"%char s
  | _ => false
  end.

Definition gender_map : list (string * string) :=
  [("M", "Male"); ("MALE", "Male"); ("F", "Female"); ("FEMALE", "Female");
   ("O", "Other"); ("OTHER", "Other")].

Fixpoint dict_get (m : list (string * string)) (k : string) : option string :=
  match m with
  | [] => None
  | (k', v) :: m' => if String.eqb k' k then Some v else dict_get m' k
  end.

(** [Series.str.upper().map({...})] *)
Definition normalize_gender (c : cell) : cell :=
  match c with
  | Str s => from_option Str NA (dict_get gender_map (str_upper s))
  | _ => NA
  end.

Definition coerce_if_present (df : DataFrame) (c : string) (f : cell → cell)
  : DataFrame :=
  if has_col df c then assign df c (λ r, f (cell_at r c)) else df.

Definition default_if_absent (df : DataFrame) (c : string) (v : cell)
  : DataFrame :=
  if has_col df c then df else assign df c (λ _, v).

(** ** The per-entity transforms *)

Definition drug_column_mapping : list (string * string) :=
  [("DrugCode", "drug_code"); ("DrugName", "drug_name");
   ("GenericName", "generic_name"); ("Manufacturer", "manufacturer");
   ("Category", "category"); ("UnitPrice", "unit_price");
   ("Stock", "stock_quantity"); ("ExpiryDate", "expiry_date");
   ("Drug_ID", "drug_code"); ("Product_Name", "drug_name");
   ("MFR", "manufacturer")].

Definition sale_column_mapping : list (string * string) :=
  [("TransactionID", "transaction_id"); ("SaleDate", "sale_date");
   ("DrugID", "drug_id"); ("Quantity", "quantity"); ("Price", "unit_price");
   ("Total", "total_amount"); ("Pharmacy", "pharmacy_name");
   ("PaymentMethod", "payment_method")].

Definition patient_column_mapping : list (string * string) :=
  [("PatientID", "patient_code"); ("FirstName", "first_name");
   ("LastName", "last_name"); ("DOB", "date_of_birth"); ("Gender", "gender");
   ("Email", "email"); ("Phone", "phone"); ("Condition", "primary_condition");
   ("Insurance", "insurance_id")].

Section Transforms.
Context `{!Pandas}.

(** *** [transform_drugs] *)

(** Renaming and type coercion. *)
Definition drugs_coerced (df : DataFrame) : DataFrame :=
  let df := set_columns drug_column_mapping df in
  let df := coerce_if_present df "unit_price" to_numeric in
  let df := coerce_if_present df "stock_quantity"
              (λ c, int_of_cell (fillna (Int 0) (to_numeric c))) in
  coerce_if_present df "expiry_date" to_datetime.

(** [dropna(subset=['drug_code', 'drug_name'])]: the frame on which the
    defaults and the derived fields are then computed. *)
Definition drugs_filtered (df : DataFrame) : result DataFrame :=
  dropna ["drug_code"; "drug_name"] (drugs_coerced df).

(** Defaults and derived fields, computed on the frame it is given. *)
Definition drugs_derived (now : Z) (df : DataFrame) : result DataFrame :=
  let df := default_if_absent df "category" (Str "Prescription") in
  let df := default_if_absent df "min_stock_level" (Int 10) in
  let df := default_if_absent df "max_stock_level" (Int 1000) in
  _ ← series df "unit_price";
  _ ← series df "stock_quantity";
  let df := assign df "stock_value"
              (λ r, mul_cell (cell_at r "unit_price")
                             (cell_at r "stock_quantity")) in
  mret (if has_col df "expiry_date"
        then assign df "days_to_expiry"
               (λ r, days_between (cell_at r "expiry_date") now)
        else df).

Definition transform_drugs (now : Z) (df : DataFrame) : result DataFrame :=
  df ← drugs_filtered df;
  drugs_derived now df.

(** *** [transform_sales] *)

Definition sales_coerced (df : DataFrame) : DataFrame :=
  let df := set_columns sale_column_mapping df in
  let df := coerce_if_present df "sale_date" to_datetime in
  foldl (λ df c, coerce_if_present df c to_numeric) df
    ["quantity"; "unit_price"; "total_amount"; "discount"; "tax_amount"].

(** Backfilled total and calendar parts, computed on the frame given. *)
Definition sales_derived (df : DataFrame) : result DataFrame :=
  let df :=
    if negb (has_col df "total_amount")
       && forallb (has_col df) ["unit_price"; "quantity"]
    then assign df "total_amount"
           (λ r, mul_cell (cell_at r "unit_price") (cell_at r "quantity"))
    else df in
  _ ← series df "sale_date";
  let df := assign df "year"
              (λ r, dt_part (λ t, Int (dt_year t)) (cell_at r "sale_date")) in
  let df := assign df "month"
              (λ r, dt_part (λ t, Int (dt_month t)) (cell_at r "sale_date")) in
  let df := assign df "day"
              (λ r, dt_part (λ t, Int (dt_day t)) (cell_at r "sale_date")) in
  mret (assign df "day_of_week"
          (λ r, dt_part (λ t, Str (dt_day_name t)) (cell_at r "sale_date"))).

(** [dropna(subset=[...])] followed by [df[df['quantity'] > 0]]. *)
Definition sales_filtered (df : DataFrame) : result DataFrame :=
  df ← dropna ["transaction_id"; "drug_id"; "sale_date"] df;
  _ ← series df "quantity";
  mret (select df (λ r, gt_zero (cell_at r "quantity"))).

Definition transform_sales (df : DataFrame) : result DataFrame :=
  df ← sales_derived (sales_coerced df);
  sales_filtered df.

(** *** [transform_patients] *)

(** [((today - dob).dt.days / 365.25)] of one cell *)
Definition age_years (today : Z) (dob : cell) : cell :=
  match dob with
  | Timestamp t =>
      Float (inject_Z ((today - t) `div` 86400) / (36525 # 100))
  | _ => NA
  end.

(** Date parsing and the age column; nothing when the frame has no
    [date_of_birth]. *)
Definition patients_aged (now : Z) (df : DataFrame) : result DataFrame :=
  if has_col df "date_of_birth" then
    let df := assign df "date_of_birth"
                (λ r, to_datetime (cell_at r "date_of_birth")) in
    let today := now in
    dob ← series df "date_of_birth";
    ages ← astype_int (age_years today <$> dob);
    mret (assign_indexed df "age" (λ i, default NA (ages !! i)))
  else mret df.

Definition patients_email (df : DataFrame) : result DataFrame :=
  if has_col df "email" then
    col ← series df "email";
    _ ← str_accessor col;
    mret (assign df "email"
            (λ r, if contains_at (cell_at r "email")
                  then cell_at r "email" else NA))
  else mret df.

Definition patients_gender (df : DataFrame) : result DataFrame :=
  if has_col df "gender" then
    col ← series df "gender";
    _ ← str_accessor col;
    mret (assign df "gender" (λ r, normalize_gender (cell_at r "gender")))
  else mret df.

(** [fresh_code i] is the code drawn for the row at position [i]
    ([f"PAT-{str(uuid.uuid4())[:8].upper()}"]). *)
Definition transform_patients (now : Z) (fresh_code : nat → string)
    (df : DataFrame) : result DataFrame :=
  let df := set_columns patient_column_mapping df in
  df ← patients_aged now df;
  df ← patients_email df;
  df ← patients_gender df;
  df ← dropna ["first_name"; "last_name"; "date_of_birth"] df;
  mret (if has_col df "patient_code" then df
        else assign_indexed df "patient_code" (λ i, Str (fresh_code i))).
End Transforms.

(** ** [validate_data_quality] *)





(** Python's [round(x)] on an exact rational: to the nearest integer, ties
    to the even one. *)
Definition round_half_even (q : Q) : Z :=
  let f := Qfloor q in
  match (q - inject_Z f ?= 1 # 2)%Q with
  | Lt => f
  | Gt => f + 1
  | Eq => if Z.even f then f else f + 1
  end.

(** [round(x, 2)] *)
Definition round2 (q : Q) : Q := round_half_even (q * 100) # 100.

(** The three field lists selected by [data_type]:
    (required, numeric, date). *)
Definition field_lists (data_type : string)
  : list string * list string * list string :=
  if String.eqb data_type "drugs" then
    (["drug_code"; "drug_name"; "manufacturer"; "unit_price"],
     ["unit_price"; "stock_quantity"],
     ["expiry_date"])
  else if String.eqb data_type "sales" then
    (["transaction_id"; "drug_id"; "sale_date"; "quantity"],
     ["quantity"; "unit_price"; "total_amount"],
     ["sale_date"])
  else if String.eqb data_type "patients" then
    (["first_name"; "last_name"; "date_of_birth"],
     ["age"],
     ["date_of_birth"])
  else ([], [], []).



Section Validation.
Context `{!Pandas}.


End Validation.

(** ** [load_to_database] *)


Abbreviation database := (gmap string DataFrame).












(** ** The canonical store as the ORM models see it

    Only the columns the monitor reads. A nullable column is an [option];
    the primary key is not. Dates are day numbers. *)

Module Drug.
Record t : Type := mk {
  id : Z;
  drug_code : option string;
  drug_name : option string;
  manufacturer : option string;
  unit_price : option Q;
  stock_quantity : option Z;
  expiry_date : option Z;
}.
End Drug.

Module Sale.
Record t : Type := mk {
  id : Z;
  transaction_id : option string;
  drug_id : option Z;
  sale_date : option Z;
  quantity : option Z;
  unit_price : option Q;
  discount : option Q;
  total_amount : option Q;
}.
End Sale.

Module Patient.
Record t : Type := mk {
  id : Z;
  first_name : option string;
  last_name : option string;
  date_of_birth : option Z;
  age : option Z;
  created_at : option Z;
}.
End Patient.

Record store : Type := mkStore {
  drugs : list Drug.t;
  sales : list Sale.t;
  patients : list Patient.t;
}.

(** Python values held in the report dictionaries. [PyDate d] is the ISO
    text of the day [d]. *)
Inductive pyval : Type :=
  | PyInt (z : Z)
  | PyFloat (q : Q)
  | PyStr (s : string)
  | PyDate (d : Z)
  | PyNone.

(** [a + b] *)
Definition py_add (a b : pyval) : result pyval :=
  match a, b with
  | PyInt x, PyInt y => Ok (PyInt (x + y))
  | PyInt x, PyFloat y => Ok (PyFloat (inject_Z x + y))
  | PyFloat x, PyInt y => Ok (PyFloat (x + inject_Z y))
  | PyFloat x, PyFloat y => Ok (PyFloat (x + y))
  | PyStr x, PyStr y => Ok (PyStr (x ++ y))
  | _, _ => Raise TypeError
  end.

(** [sum(values)]: left to right, from the integer 0. *)
Definition py_sum (values : list pyval) : result pyval :=
  foldl (λ acc v, a ← acc; py_add a v) (Ok (PyInt 0)) values.

(** [dict.values()] of a dictionary kept in insertion order *)
Definition dict_values {A} (d : list (string * A)) : list A := snd <$> d.

(** A filter condition of SQL is three-valued: a comparison on a NULL is
    unknown, and an unknown row is not selected. *)
Definition sql_cmp {A B} (cmp : A → B → bool) (a : option A) (b : option B)
  : bool :=
  match a, b with
  | Some x, Some y => cmp x y
  | _, _ => false
  end.

Definition Qlt_bool (a b : Q) : bool := negb (Qle_bool b a).

(** ** [DataQualityMonitor] *)

Record completeness_report : Type := mkCompleteness {
  table : string;
  c_total_records : Z;
  complete_records : Z;
  completeness_rate : Q;
}.

(** [column.isnot(None)] *)
Definition isnot_none {A} (o : option A) : bool :=
  match o with Some _ => true | None => false end.

Definition drug_complete (d : Drug.t) : bool :=
  isnot_none (Drug.drug_code d) && isnot_none (Drug.drug_name d)
  && isnot_none (Drug.manufacturer d) && isnot_none (Drug.unit_price d).

Definition sale_complete (s : Sale.t) : bool :=
  isnot_none (Sale.transaction_id s) && isnot_none (Sale.drug_id s)
  && isnot_none (Sale.sale_date s) && isnot_none (Sale.total_amount s).

Definition patient_complete (p : Patient.t) : bool :=
  isnot_none (Patient.first_name p) && isnot_none (Patient.last_name p)
  && isnot_none (Patient.date_of_birth p).

(** [query.filter(...).count()] *)
Definition count_rows {A} (p : A → bool) (l : list A) : Z :=
  Z.of_nat (length (List.filter p l)).

Definition count_all {A} (l : list A) : Z := Z.of_nat (length l).

(** [(total, complete)] of a known table, [None] for the others. *)
Definition completeness_counts (st : store) (table_name : string)
  : option (Z * Z) :=
  if String.eqb table_name "drugs" then
    Some (count_all (drugs st), count_rows drug_complete (drugs st))
  else if String.eqb table_name "sales" then
    Some (count_all (sales st), count_rows sale_complete (sales st))
  else if String.eqb table_name "patients" then
    Some (count_all (patients st), count_rows patient_complete (patients st))
  else None.

(** [check_completeness(table_name)]; [None] is the
    [{'error': 'Unknown table: ...'}] answer. *)
Definition check_completeness (st : store) (table_name : string)
  : option completeness_report :=
  match completeness_counts st table_name with
  | Some (total, complete) =>
      let completeness_rate :=
        if (0 <? total)%Z
        then (inject_Z complete / inject_Z total * 100)%Q
        else 0%Q in
      Some {| table := table_name;
              c_total_records := total;
              complete_records := complete;
              completeness_rate := round2 completeness_rate |}
  | None => None
  end.

Definition is_orphaned (st : store) (s : Sale.t) : bool :=
  match Sale.drug_id s with
  | Some d => negb (bool_decide (d ∈ Drug.id <$> drugs st))
  | None => false
  end.

Definition has_negative_stock (d : Drug.t) : bool :=
  sql_cmp Z.ltb (Drug.stock_quantity d) (Some 0).

Definition is_future_sale (today : Z) (s : Sale.t) : bool :=
  sql_cmp Z.gtb (Sale.sale_date s) (Some today).

Definition is_expired_in_stock (today : Z) (d : Drug.t) : bool :=
  sql_cmp Z.ltb (Drug.expiry_date d) (Some today)
  && sql_cmp Z.gtb (Drug.stock_quantity d) (Some 0).

(** [check_consistency()]: the dictionary it returns, in insertion order;
    [now_iso] is [datetime.now().isoformat()]. *)
Definition check_consistency (today : Z) (now_iso : string) (st : store)
  : list (string * pyval) :=
  let orphaned_sales := count_rows (is_orphaned st) (sales st) in
  let negative_stock := count_rows has_negative_stock (drugs st) in
  let future_sales := count_rows (is_future_sale today) (sales st) in
  let expired_drugs := count_rows (is_expired_in_stock today) (drugs st) in
  [("orphaned_sales", PyInt orphaned_sales);
   ("negative_stock", PyInt negative_stock);
   ("future_sales", PyInt future_sales);
   ("expired_drugs_in_stock", PyInt expired_drugs);
   ("timestamp", PyStr now_iso)].

Record accuracy_issue : Type := mkAccuracyIssue {
  rule : string;
  violations : Z;
  example : option Z;
}.

Record accuracy_report : Type := mkAccuracy {
  total_issues : Z;
  accuracy_issues : list accuracy_issue;
}.

(** One rule of [check_accuracy]: an entry when the query returns rows. *)
Definition rule_issue {A} (name : string) (get_id : A → Z) (found : list A)
  : list accuracy_issue :=
  match found with
  | [] => []
  | x :: _ => [mkAccuracyIssue name (count_all found) (Some (get_id x))]
  end.

Definition invalid_price (d : Drug.t) : bool :=
  sql_cmp Qle_bool (Drug.unit_price d) (Some 0%Q).

Definition invalid_quantity (s : Sale.t) : bool :=
  sql_cmp Z.leb (Sale.quantity s) (Some 0).

Definition invalid_age (p : Patient.t) : bool :=
  sql_cmp Z.ltb (Patient.age p) (Some 0)
  || sql_cmp Z.gtb (Patient.age p) (Some 120).

Definition invalid_discount (s : Sale.t) : bool :=
  match Sale.discount s, Sale.unit_price s, Sale.quantity s with
  | Some d, Some p, Some q => Qlt_bool (p * inject_Z q) d
  | _, _, _ => false
  end.

Definition check_accuracy (st : store) : accuracy_report :=
  let found : list accuracy_issue :=
    (rule_issue "Unit price must be positive" Drug.id
       (List.filter invalid_price (drugs st))
     ++ rule_issue "Sale quantity must be positive" Sale.id
          (List.filter invalid_quantity (sales st))
     ++ rule_issue "Patient age must be between 0 and 120" Patient.id
          (List.filter invalid_age (patients st))
     ++ rule_issue "Discount cannot exceed sale amount" Sale.id
          (List.filter invalid_discount (sales st)))%list in
  {| total_issues := count_all found; accuracy_issues := found |}.

Record timeliness_report : Type := mkTimeliness {
  last_sale_date : option Z;
  days_since_last_sale : option Z;
  recent_sales_7_days : Z;
  recent_patients_7_days : Z;
}.

(** [Sale.query.order_by(Sale.sale_date.desc()).first().sale_date]: the
    latest date, a NULL date sorting first in descending order. *)
Definition latest_sale_date (l : list Sale.t) : option Z :=
  match l with
  | [] => None
  | s :: l' =>
      foldl (λ acc s', d ← acc; d' ← Sale.sale_date s'; Some (Z.max d d'))
        (Sale.sale_date s) l'
  end.

Definition check_timeliness (today : Z) (st : store) : timeliness_report :=
  let last := latest_sale_date (sales st) in
  let week_ago := today - 7 in
  {| last_sale_date := last;
     days_since_last_sale := (λ d, today - d) <$> last;
     recent_sales_7_days :=
       count_rows (λ s, sql_cmp Z.geb (Sale.sale_date s) (Some week_ago))
         (sales st);
     recent_patients_7_days :=
       count_rows (λ p, sql_cmp Z.geb (Patient.created_at p) (Some week_ago))
         (patients st) |}.

Inductive grade : Type := A | B | C | D | F.

(** [_get_quality_grade(score)] *)
Definition get_quality_grade (score : Q) : grade :=
  if Qle_bool 90 score then A
  else if Qle_bool 80 score then B
  else if Qle_bool 70 score then C
  else if Qle_bool 60 score then D
  else F.

Record quality_score_report : Type := mkScore {
  completeness : Q;
  consistency : Z;
  accuracy : Z;
  timeliness : Z;
  overall : Q;
  quality_grade : grade;
}.

(** [np.mean(scores) if scores else 0] *)
Definition mean (scores : list Q) : Q :=
  match scores with
  | [] => 0%Q
  | _ => (foldr Qplus 0 scores / inject_Z (Z.of_nat (length scores)))%Q
  end.

(** [total > 0] on the value [sum] returned *)
Definition py_gt_zero (v : pyval) : result bool :=
  match v with
  | PyInt z => Ok (0 <? z)%Z
  | PyFloat q => Ok (Qlt_bool 0 q)
  | _ => Raise TypeError
  end.

(** [max(0, 100 - (total * 10))] on the value [sum] returned *)
Definition consistency_penalty (v : pyval) : result Z :=
  match v with
  | PyInt z => Ok (Z.max 0 (100 - z * 10))
  | PyFloat q => Ok (Z.max 0 (100 - Qfloor (q * 10)))
  | _ => Raise TypeError
  end.

(** [run_comprehensive_quality_check()]: the ['quality_score'] entry of
    the report it returns. *)
Definition run_comprehensive_quality_check (today : Z) (now_iso : string)
    (st : store) : result quality_score_report :=
  let tables := ["drugs"; "sales"; "patients"] in
  let completeness_checks := (λ t, check_completeness st t) <$> tables in
  let consistency_issues := check_consistency today now_iso st in
  let accuracy_check := check_accuracy st in
  let timeliness_check := check_timeliness today st in
  let completeness_scores :=
    from_option completeness_rate 0%Q <$> completeness_checks in
  let avg_completeness := mean completeness_scores in
  total_consistency_issues ← py_sum (dict_values consistency_issues);
  positive ← py_gt_zero total_consistency_issues;
  consistency_score ←
    (if positive : bool then consistency_penalty total_consistency_issues
     else Ok 100);
  let accuracy_issues := total_issues accuracy_check in
  let accuracy_score :=
    if (0 <? accuracy_issues)%Z then Z.max 0 (100 - accuracy_issues * 5)
    else 100 in
  let timeliness_score :=
    match days_since_last_sale timeliness_check with
    | Some days =>
        if (7 <? days)%Z then Z.max 0 (100 - (days - 7) * 5) else 100
    | None => 100
    end in
  let overall_score :=
    (avg_completeness * (4 # 10)
     + inject_Z consistency_score * (3 # 10)
     + inject_Z accuracy_score * (2 # 10)
     + inject_Z timeliness_score * (1 # 10))%Q in
  mret {| completeness := round2 avg_completeness;
          consistency := consistency_score;
          accuracy := accuracy_score;
          timeliness := timeliness_score;
          overall := round2 overall_score;
          quality_grade := get_quality_grade overall_score |}.

(** ** [fix_data_issues]

    The session works on its own view of the store: changes made through
    the ORM are flushed before each later query of the same call, and reach
    the committed store only through [db.session.commit()]. *)

Record fix_record : Type := mkFix {
  fix_table : string;
  fix_id : Z;
  fix_field : string;
  old_value : pyval;
  new_value : pyval;
  fix_type : string;
}.

Record fix_report : Type := mkFixReport {
  fixes_applied : Z;
  details : list fix_record;
}.

Definition opt_int (o : option Z) : pyval :=
  match o with Some z => PyInt z | None => PyNone end.

Definition opt_date (o : option Z) : pyval :=
  match o with Some d => PyDate d | None => PyNone end.

Definition set_stock (q : Z) (d : Drug.t) : Drug.t :=
  Drug.mk (Drug.id d) (Drug.drug_code d) (Drug.drug_name d)
    (Drug.manufacturer d) (Drug.unit_price d) (Some q) (Drug.expiry_date d).

Definition set_sale_date (day : Z) (s : Sale.t) : Sale.t :=
  Sale.mk (Sale.id s) (Sale.transaction_id s) (Sale.drug_id s) (Some day)
    (Sale.quantity s) (Sale.unit_price s) (Sale.discount s)
    (Sale.total_amount s).

(** First loop: every drug with a negative stock is set to 0. *)
Definition fix_negative_stock (st : store) : store * list fix_record :=
  let negative_stock_drugs := List.filter has_negative_stock (drugs st) in
  ({| drugs := (λ d, if has_negative_stock d then set_stock 0 d else d)
                 <$> drugs st;
      sales := sales st;
      patients := patients st |},
   (λ d, mkFix "drugs" (Drug.id d) "stock_quantity"
           (opt_int (Drug.stock_quantity d)) (PyInt 0) "Negative to zero")
     <$> negative_stock_drugs).

(** Second loop: every sale that refers to no drug is deleted. *)
Definition fix_orphaned_sales (st : store) : store * list fix_record :=
  let orphaned_sales := List.filter (is_orphaned st) (sales st) in
  ({| drugs := drugs st;
      sales := List.filter (λ s, negb (is_orphaned st s)) (sales st);
      patients := patients st |},
   (λ s, mkFix "sales" (Sale.id s) "all" (PyStr "Exists") (PyStr "Deleted")
           "Remove orphaned record")
     <$> orphaned_sales).

(** Third loop: every sale dated after today is dated today. *)
Definition fix_future_sales (today : Z) (st : store)
  : store * list fix_record :=
  let future_sales := List.filter (is_future_sale today) (sales st) in
  ({| drugs := drugs st;
      sales := (λ s, if is_future_sale today s then set_sale_date today s
                     else s) <$> sales st;
      patients := patients st |},
   (λ s, mkFix "sales" (Sale.id s) "sale_date"
           (opt_date (Sale.sale_date s)) (PyDate today)
           "Future date correction")
     <$> future_sales).

(** [fix_data_issues()]: what the call yields and the committed store it
    leaves. [commit_ok] tells whether [db.session.commit()] goes through;
    a failed commit raises and persists nothing. *)
Definition fix_data_issues (commit_ok : bool) (today : Z) (st : store)
  : result fix_report * store :=
  let '(st1, fixed_stock) := fix_negative_stock st in
  let '(st2, deleted) := fix_orphaned_sales st1 in
  let '(st3, redated) := fix_future_sales today st2 in
  let fixes_applied : list fix_record :=
    (fixed_stock ++ deleted ++ redated)%list in
  let report := {| fixes_applied := count_all fixes_applied;
                   details := fixes_applied |} in
  match fixes_applied with
  | [] => (Ok report, st)
  | _ :: _ =>
      if commit_ok then (Ok report, st3)
      else (Raise DatabaseError, st)
  end.

(** ** Dispatch on the entity type, and the required fields *)

(** The [if data_type == ...] chain of [run_etl_pipeline]. *)
Definition transform_for `{!Pandas} (data_type : string) (now : Z)
    (fresh_code : nat → string) (df : DataFrame) : result DataFrame :=
  if String.eqb data_type "drugs" then transform_drugs now df
  else if String.eqb data_type "sales" then transform_sales df
  else if String.eqb data_type "patients"
       then transform_patients now fresh_code df
       else Raise ValueError.

(** The required fields of an entity type, as [validate_data_quality]
    lists them. *)
Definition required_fields (data_type : string) : list string :=
  (field_lists data_type).1.1.

(** The fields on which the transform of an entity type does drop rows:
    the [subset] of its [dropna], and [quantity] for the sales, whose rows
    must pass [quantity > 0]. *)
Definition enforced_fields (data_type : string) : list string :=
  if String.eqb data_type "drugs" then ["drug_code"; "drug_name"]
  else if String.eqb data_type "sales"
       then ["transaction_id"; "drug_id"; "sale_date"; "quantity"]
  else if String.eqb data_type "patients"
       then ["first_name"; "last_name"; "date_of_birth"]
       else [].




(** The store after the three passes of [fix_data_issues]. *)
Definition fixed_store (today : Z) (st : store) : store :=
  (fix_future_sales today (fix_orphaned_sales (fix_negative_stock st).1).1).1.

(** ** A concrete interpretation of the pandas interface, for examples

    Numbers are runs of decimal digits, dates are ["YYYY-MM-DD"]. *)

Definition digit_of (a : ascii) : option Z :=
  let n := nat_of_ascii a in
  if (Nat.leb 48 n && Nat.leb n 57)%bool then Some (Z.of_nat (n - 48))
  else None.

Fixpoint digits_value (acc : Z) (s : string) : option Z :=
  match s with
  | EmptyString => Some acc
  | String a s' =>
      match digit_of a with
      | Some d => digits_value (acc * 10 + d) s'
      | None => None
      end
  end.

Definition parse_digits (s : string) : option Z :=
  match s with
  | EmptyString => None
  | _ => digits_value 0 s
  end.

Definition days_from_civil (y m d : Z) : Z :=
  let y := if (m <=? 2)%Z then y - 1 else y in
  let era := y `div` 400 in
  let yoe := y - era * 400 in
  let mp := if (2 <? m)%Z then m - 3 else m + 9 in
  let doy := (153 * mp + 2) `div` 5 + d - 1 in
  let doe := yoe * 365 + yoe `div` 4 - yoe `div` 100 + doy in
  era * 146097 + doe - 719468.

Definition civil_from_days (z : Z) : Z * Z * Z :=
  let z := z + 719468 in
  let era := z `div` 146097 in
  let doe := z - era * 146097 in
  let yoe :=
    (doe - doe `div` 1460 + doe `div` 36524 - doe `div` 146096) `div` 365 in
  let doy := doe - (365 * yoe + yoe `div` 4 - yoe `div` 100) in
  let mp := (5 * doy + 2) `div` 153 in
  let d := doy - (153 * mp + 2) `div` 5 + 1 in
  let m := if (mp <? 10)%Z then mp + 3 else mp - 9 in
  (yoe + era * 400 + (if (m <=? 2)%Z then 1 else 0), m, d).

Definition parse_iso_date (s : string) : option Z :=
  if bool_decide (String.length s = 10%nat
                  ∧ String.get 4 s = Some "-"%char
                  ∧ String.get 7 s = Some "-"%char)
  then
    y ← parse_digits (String.substring 0 4 s);
    m ← parse_digits (String.substring 5 2 s);
    d ← parse_digits (String.substring 8 2 s);
    if bool_decide (1 ≤ m ≤ 12 ∧ 1 ≤ d ≤ 31)%Z
    then Some (days_from_civil y m d * 86400)
    else None
  else None.

Definition day_names : list string :=
  ["Sunday"; "Monday"; "Tuesday"; "Wednesday"; "Thursday"; "Friday";
   "Saturday"].

Definition iso_pandas : Pandas :=
  {| parse_number := λ s, NInt <$> parse_digits s;
     parse_datetime := parse_iso_date;
     dt_year := λ t, (civil_from_days (t `div` 86400)).1.1;
     dt_month := λ t, (civil_from_days (t `div` 86400)).1.2;
     dt_day := λ t, (civil_from_days (t `div` 86400)).2;
     dt_day_name := λ t,
       default "" (day_names !! Z.to_nat ((t `div` 86400 + 4) `mod` 7)) |}.

Definition make_row (l : list (string * cell)) : row := list_to_map l.

(** 2024-03-01 00:00:00 *)
Definition example_now : Z := 19783 * 86400.

(** A drug file in which the second drug has no manufacturer and the
    third no drug code. *)
Definition example_drugs : DataFrame :=
  {| columns := ["DrugCode"; "DrugName"; "Manufacturer"; "UnitPrice"; "Stock"];
     rows :=
       [make_row [("DrugCode", Str "DRG1"); ("DrugName", Str "Aspirin");
                  ("Manufacturer", Str "Bayer"); ("UnitPrice", Str "12");
                  ("Stock", Int 40)];
        make_row [("DrugCode", Str "DRG2"); ("DrugName", Str "Ibuprofen");
                  ("Manufacturer", NA); ("UnitPrice", Str "7");
                  ("Stock", Int 5)];
        make_row [("DrugCode", NA); ("DrugName", Str "Nameless");
                  ("Manufacturer", Str "Acme"); ("UnitPrice", Str "3");
                  ("Stock", Int 1)]] |}.


(** A patient file whose rows all have a readable date of birth; the
    second patient has no last name. *)
Definition example_patients : DataFrame :=
  {| columns := ["FirstName"; "LastName"; "DOB"; "Gender"; "Email"];
     rows :=
       [make_row [("FirstName", Str "Ann"); ("LastName", Str "Lee");
                  ("DOB", Str "1990-05-17"); ("Gender", Str "f");
                  ("Email", Str "ann@example.org")];
        make_row [("FirstName", Str "Bob"); ("LastName", NA);
                  ("DOB", Str "1985-01-02"); ("Gender", Str "x");
                  ("Email", Str "bob.example.org")]] |}.

(** A patient file with one date of birth that does not parse. *)
Definition example_patients_bad_dob : DataFrame :=
  {| columns := ["FirstName"; "LastName"; "DOB"];
     rows :=
       [make_row [("FirstName", Str "Ann"); ("LastName", Str "Lee");
                  ("DOB", Str "1990-05-17")];
        make_row [("FirstName", Str "Cy"); ("LastName", Str "Ng");
                  ("DOB", Str "not-a-date")]] |}.

Definition example_codes (i : nat) : string :=
  "PAT-0000000" ++ String (ascii_of_nat (48 + i)) "".



(** The fields whose presence [check_completeness] asks of a row, as
    propositions. *)
Definition drug_fields_present (d : Drug.t) : Prop :=
  is_Some (Drug.drug_code d) ∧ is_Some (Drug.drug_name d)
  ∧ is_Some (Drug.manufacturer d) ∧ is_Some (Drug.unit_price d).

Definition sale_fields_present (s : Sale.t) : Prop :=
  is_Some (Sale.transaction_id s) ∧ is_Some (Sale.drug_id s)
  ∧ is_Some (Sale.sale_date s) ∧ is_Some (Sale.total_amount s).

Definition patient_fields_present (p : Patient.t) : Prop :=
  is_Some (Patient.first_name p) ∧ is_Some (Patient.last_name p)
  ∧ is_Some (Patient.date_of_birth p).

#[global] Instance drug_fields_present_dec d : Decision (drug_fields_present d).
Proof. unfold drug_fields_present. apply _. Defined.

#[global] Instance sale_fields_present_dec s : Decision (sale_fields_present s).
Proof. unfold sale_fields_present. apply _. Defined.

#[global] Instance patient_fields_present_dec p :
  Decision (patient_fields_present p).
Proof. unfold patient_fields_present. apply _. Defined.


(** A store with a drug whose stock is negative, a sale without
    quantity, a sale of a drug that does not exist and a sale dated after
    day 19783. *)
Definition example_store : store :=
  {| drugs :=
       [Drug.mk 1 (Some "DRG1") (Some "Aspirin") (Some "Bayer")
          (Some (12 # 1)) (Some (-5)) None;
        Drug.mk 2 (Some "DRG2") (Some "Ibuprofen") (Some "Acme")
          (Some (7 # 1)) (Some 30) None];
     sales :=
       [Sale.mk 10 (Some "T10") (Some 1) (Some 19780) None (Some (12 # 1))
          None (Some (24 # 1));
        Sale.mk 11 (Some "T11") (Some 99) (Some 19781) (Some 1)
          (Some (5 # 1)) None (Some (5 # 1));
        Sale.mk 12 (Some "T12") (Some 2) (Some 19793) (Some 2)
          (Some (7 # 1)) None (Some (14 # 1))];
     patients := [] |}.










(** Every row of the frame is without a null in the listed columns. *)
Definition all_complete (subset : list string) (df : DataFrame) : Prop :=
  ∀ r, r ∈ rows df → complete_on subset r = true.

(** * Properties *)

(** ** The result monad *)

Lemma bind_Ok {A B} (m : result A) (f : A → result B) (b : B) :
  m ≫= f = Ok b → ∃ a, m = Ok a ∧ f a = Ok b.
Proof. destruct m as [a|e]; [by exists a | discriminate]. Qed.

Ltac inv_bind H :=
  let a := fresh "d" in
  let Ha := fresh "H" a in
  apply bind_Ok in H as (a & Ha & H).

(** ** Frames *)

Lemma cell_at_insert_ne (r : row) c c' v :
  c ≠ c' → cell_at (<[c := v]> r) c' = cell_at r c'.
Proof. intros Hne. unfold cell_at. by rewrite lookup_insert_ne. Qed.

Lemma cell_at_insert_eq (r : row) c v : cell_at (<[c := v]> r) c = v.
Proof. unfold cell_at. by rewrite lookup_insert_eq. Qed.

Lemma complete_on_insert subset (r : row) c v :
  c ∉ subset → complete_on subset (<[c := v]> r) = complete_on subset r.
Proof.
  intros Hnotin. unfold complete_on. induction subset as [|c' subset IH]; [done|].
  apply not_elem_of_cons in Hnotin as [Hne Hnotin]. simpl.
  rewrite cell_at_insert_ne by done. by rewrite IH.
Qed.

Lemma complete_on_elem subset (r : row) c :
  complete_on subset r = true → c ∈ subset → cell_at r c ≠ NA.
Proof.
  unfold complete_on. rewrite forallb_forall. intros Hall Hin%list_elem_of_In.
  specialize (Hall c Hin). by destruct (cell_at r c).
Qed.

Lemma elem_of_filter_bool {A} (p : A → bool) (l : list A) (x : A) :
  x ∈ List.filter p l ↔ x ∈ l ∧ p x = true.
Proof. by rewrite !list_elem_of_In, filter_In. Qed.

Lemma dropna_Ok subset df d :
  dropna subset df = Ok d →
  columns d = columns df
  ∧ rows d = List.filter (complete_on subset) (rows df).
Proof.
  unfold dropna. destruct (first_missing df subset); [discriminate|].
  by intros [= <-].
Qed.

Lemma dropna_complete subset df d :
  dropna subset df = Ok d → all_complete subset d.
Proof.
  intros (_ & Hrows)%dropna_Ok r Hr. rewrite Hrows in Hr.
  by apply elem_of_filter_bool in Hr as [_ ?].
Qed.

Lemma assign_complete subset df c f :
  c ∉ subset → all_complete subset df → all_complete subset (assign df c f).
Proof.
  intros Hc Hall r Hr. unfold assign in Hr; simpl in Hr.
  apply list_elem_of_fmap in Hr as (r0 & -> & Hr0).
  rewrite complete_on_insert by done. by apply Hall.
Qed.

Lemma assign_indexed_complete subset df c f :
  c ∉ subset → all_complete subset df →
  all_complete subset (assign_indexed df c f).
Proof.
  intros Hc Hall r Hr. unfold assign_indexed in Hr; simpl in Hr.
  apply list_elem_of_lookup in Hr as (i & Hi).
  rewrite list_lookup_imap in Hi.
  destruct (rows df !! i) as [r0|] eqn:Hr0; [|discriminate].
  simpl in Hi. injection Hi as <-.
  rewrite complete_on_insert by done.
  apply Hall. by apply list_elem_of_lookup; exists i.
Qed.

Lemma default_if_absent_complete subset df c v :
  c ∉ subset → all_complete subset df →
  all_complete subset (default_if_absent df c v).
Proof.
  intros Hc Hall. unfold default_if_absent.
  destruct (has_col df c); [done|]. by apply assign_complete.
Qed.

Lemma select_complete subset df mask :
  all_complete subset df → all_complete subset (select df mask).
Proof.
  intros Hall r Hr. unfold select in Hr; simpl in Hr.
  apply elem_of_filter_bool in Hr as [Hr _]. by apply Hall.
Qed.

Ltac notin_names :=
  let Hin := fresh in
  intros Hin;
  repeat (apply elem_of_cons in Hin as [Hin|Hin]; [discriminate Hin|]);
  by apply elem_of_nil in Hin.

(** ** Rows that survive the transforms *)

Section TransformOutput.
Context `{!Pandas}.

Lemma drugs_derived_complete subset now df out :
  "category" ∉ subset → "min_stock_level" ∉ subset →
  "max_stock_level" ∉ subset → "stock_value" ∉ subset →
  "days_to_expiry" ∉ subset →
  drugs_derived now df = Ok out →
  all_complete subset df → all_complete subset out.
Proof.
  intros H1 H2 H3 H4 H5 Hout Hall. unfold drugs_derived in Hout.
  inv_bind Hout. inv_bind Hout. injection Hout as <-.
  set (df3 := default_if_absent _ "max_stock_level" _) in *.
  assert (all_complete subset df3) as Hdf3
    by (subst df3; auto using default_if_absent_complete).
  destruct (has_col _ "expiry_date"); auto using assign_complete.
Qed.

Lemma transform_drugs_complete now df out :
  transform_drugs now df = Ok out →
  all_complete ["drug_code"; "drug_name"] out.
Proof.
  unfold transform_drugs, drugs_filtered. intros Hout. inv_bind Hout.
  eapply drugs_derived_complete; [notin_names..|done|].
  by eapply dropna_complete.
Qed.

Lemma gt_zero_notna c : gt_zero c = true → notna c = true.
Proof. by destruct c. Qed.

Lemma sales_filtered_complete df out :
  sales_filtered df = Ok out →
  all_complete ["transaction_id"; "drug_id"; "sale_date"; "quantity"] out.
Proof.
  unfold sales_filtered. intros Hout. inv_bind Hout. inv_bind Hout.
  injection Hout as <-. intros r Hr. unfold select in Hr; simpl in Hr.
  apply elem_of_filter_bool in Hr as [Hr Hq].
  apply (dropna_complete _ _ _ Hd) in Hr.
  unfold complete_on in *; simpl in *.
  rewrite !andb_true_iff in Hr. destruct Hr as (-> & -> & -> & _).
  by rewrite (gt_zero_notna _ Hq).
Qed.

Lemma transform_sales_complete df out :
  transform_sales df = Ok out →
  all_complete ["transaction_id"; "drug_id"; "sale_date"; "quantity"] out.
Proof.
  unfold transform_sales. intros Hout. inv_bind Hout.
  by eapply sales_filtered_complete.
Qed.

Lemma transform_patients_complete now fresh_code df out :
  transform_patients now fresh_code df = Ok out →
  all_complete ["first_name"; "last_name"; "date_of_birth"] out.
Proof.
  unfold transform_patients. intros Hout. do 4 inv_bind Hout.
  injection Hout as <-. apply dropna_complete in Hd2.
  destruct (has_col _ "patient_code"); [done|].
  apply assign_indexed_complete; [notin_names|done].
Qed.

(** C1 (as amended): a row in the output of a transform has no null in
    the fields on which that transform drops rows: drug code and name for
    the drugs; transaction id, drug reference, sale date and quantity for
    the sales; first name, last name and date of birth for the
    patients. *)
Theorem transform_output_complete data_type now fresh_code df out r :
  transform_for data_type now fresh_code df = Ok out →
  r ∈ rows out →
  complete_on (enforced_fields data_type) r = true.
Proof.
  unfold transform_for, enforced_fields. intros Hout Hr.
  destruct (String.eqb data_type "drugs").
  { by eapply transform_drugs_complete. }
  destruct (String.eqb data_type "sales").
  { by eapply transform_sales_complete. }
  destruct (String.eqb data_type "patients"); [|discriminate].
  by eapply transform_patients_complete.
Qed.
End TransformOutput.

Lemma transform_output_complete_witness :
  ∃ out r,
    transform_for (H := iso_pandas) "drugs" example_now example_codes
      example_drugs = Ok out
    ∧ r ∈ rows out
    ∧ complete_on (enforced_fields "drugs") r = true.
Proof.
  eexists _, _. split; [reflexivity|]. split; [apply list_elem_of_here|].
  eapply (transform_output_complete (H := iso_pandas) "drugs" example_now
            example_codes example_drugs);
    [reflexivity | apply list_elem_of_here].
Defined.

(** C1 (as stated) fails for the drugs: the second row of [example_drugs]
    has no manufacturer and is in the output of [transform_drugs]. *)
Lemma transform_drugs_keeps_row_without_manufacturer :
  ∃ out r,
    transform_for (H := iso_pandas) "drugs" example_now example_codes
      example_drugs = Ok out
    ∧ r ∈ rows out
    ∧ cell_at r "manufacturer" = NA
    ∧ complete_on (required_fields "drugs") r = false.
Proof.
  eexists _, _. split; [reflexivity|].
  split; [apply list_elem_of_further, list_elem_of_here|].
  split; reflexivity.
Qed.

(** ** A null date of birth stops [transform_patients] *)

Lemma has_col_assign df c f : has_col (assign df c f) c = true.
Proof.
  unfold has_col at 1. apply bool_decide_eq_true.
  unfold assign, has_col; cbn [columns].
  case_bool_decide; [done|].
  apply elem_of_app. right. apply list_elem_of_here.
Qed.


Lemma astype_int_null col :
  NA ∈ col → astype_int col = Raise IntCastingNaNError.
Proof.
  intros Hin. unfold astype_int.
  destruct (forallb notna col) eqn:Hall; [|done].
  rewrite forallb_forall in Hall.
  apply list_elem_of_In, Hall in Hin. discriminate.
Qed.

Section PatientsRaise.
Context `{!Pandas}.

Lemma patients_aged_raises now df r :
  has_col df "date_of_birth" = true →
  r ∈ rows df →
  to_datetime (cell_at r "date_of_birth") = NA →
  patients_aged now df = Raise IntCastingNaNError.
Proof.
  intros Hcol Hr Hnat. unfold patients_aged. rewrite Hcol.
  unfold series. rewrite has_col_assign. simpl.
  rewrite astype_int_null; [done|].
  apply list_elem_of_fmap.
  exists (Timestamp 0, NA).2. split; [done|].
  apply list_elem_of_fmap.
  exists (<["date_of_birth" := to_datetime (cell_at r "date_of_birth")]> r).
  split.
  - by rewrite cell_at_insert_eq, Hnat.
  - apply list_elem_of_fmap. by exists r.
Qed.

(** C3 (the code departs from it): when the frame has a date of birth
    column and the date of birth of some row is null or does not parse,
    [transform_patients] raises [IntCastingNaNError] instead of nulling
    the value or dropping the row. *)
Theorem transform_patients_raises_on_unreadable_dob now fresh_code df r :
  has_col (set_columns patient_column_mapping df) "date_of_birth" = true →
  r ∈ rows (set_columns patient_column_mapping df) →
  to_datetime (cell_at r "date_of_birth") = NA →
  transform_patients now fresh_code df = Raise IntCastingNaNError.
Proof.
  intros Hcol Hr Hnat. unfold transform_patients.
  by rewrite (patients_aged_raises _ _ _ Hcol Hr Hnat).
Qed.
End PatientsRaise.

Lemma transform_patients_raises_on_unreadable_dob_witness :
  ∃ r,
    has_col (set_columns patient_column_mapping example_patients_bad_dob)
      "date_of_birth" = true
    ∧ r ∈ rows (set_columns patient_column_mapping example_patients_bad_dob)
    ∧ cell_at r "date_of_birth" = Str "not-a-date"
    ∧ transform_patients (H := iso_pandas) example_now example_codes
        example_patients_bad_dob = Raise IntCastingNaNError.
Proof.
  eexists. split; [reflexivity|].
  split; [apply list_elem_of_further, list_elem_of_here|].
  split; [reflexivity|].
  eapply (transform_patients_raises_on_unreadable_dob (H := iso_pandas));
    [reflexivity | apply list_elem_of_further, list_elem_of_here
    | reflexivity].
Defined.

(** With readable dates of birth the transform goes through: the patient
    without last name is dropped, the gender is normalised, the age is
    counted in whole years and a patient code is drawn. *)
Example transform_patients_on_readable_rows :
  ∃ out r,
    transform_patients (H := iso_pandas) example_now example_codes
      example_patients = Ok out
    ∧ rows out = [r]
    ∧ cell_at r "first_name" = Str "Ann"
    ∧ cell_at r "gender" = Str "Female"
    ∧ cell_at r "age" = Int 33
    ∧ cell_at r "patient_code" = Str "PAT-00000000".
Proof. eexists _, _. repeat split; reflexivity. Qed.

(** ** The order of filtering and derived fields *)








Section SalesOrder.
Context `{!Pandas}.



End SalesOrder.

Section SalesOrderTheorem.
Context `{!Pandas}.







End SalesOrderTheorem.



(** ** The validator's quality score *)




Section ValidationScore.
Context `{!Pandas}.

End ValidationScore.


(** ** The comprehensive quality check *)

(** C2 (the code departs from it): the dictionary of [check_consistency]
    holds its ISO timestamp next to the four counts, so the [sum] over
    its values adds a string to an integer: for every store the check
    raises [TypeError] and returns no score at all. *)
Theorem run_comprehensive_quality_check_raises today now_iso st :
  run_comprehensive_quality_check today now_iso st = Raise TypeError.
Proof. reflexivity. Qed.

(** ** The completeness check *)










(** ** Auto-remediation *)






(** The fix records of one call, in the order they are appended. *)
Lemma fix_data_issues_unfold commit_ok today st :
  let fixes :=
    ((fix_negative_stock st).2
     ++ (fix_orphaned_sales (fix_negative_stock st).1).2
     ++ (fix_future_sales today
           (fix_orphaned_sales (fix_negative_stock st).1).1).2)%list in
  fix_data_issues commit_ok today st
  = match fixes with
    | [] => (Ok {| fixes_applied := count_all fixes; details := fixes |}, st)
    | _ :: _ =>
        if commit_ok
        then (Ok {| fixes_applied := count_all fixes; details := fixes |},
              fixed_store today st)
        else (Raise DatabaseError, st)
    end.
Proof.
  unfold fix_data_issues, fixed_store.
  destruct (fix_negative_stock st) as [st1 f1]; cbn [fst snd].
  destruct (fix_orphaned_sales st1) as [st2 f2]; cbn [fst snd].
  by destruct (fix_future_sales today st2) as [st3 f3].
Qed.





Lemma has_negative_stock_spec d q :
  Drug.stock_quantity d = Some q → q < 0 → has_negative_stock d = true.
Proof.
  intros Hq Hneg. unfold has_negative_stock. rewrite Hq. simpl.
  by apply Z.ltb_lt.
Qed.

(** C9: when [fix_data_issues] returns, every drug whose stock was
    negative has stock 0 in the committed store, and the report holds for
    it a fix record with the old stock as old value and 0 as new value. *)
Theorem fix_data_issues_clamps_negative_stock
    commit_ok today st report st' i d q :
  fix_data_issues commit_ok today st = (Ok report, st') →
  drugs st !! i = Some d →
  Drug.stock_quantity d = Some q →
  q < 0 →
  (∃ d', drugs st' !! i = Some d'
         ∧ Drug.id d' = Drug.id d
         ∧ Drug.stock_quantity d' = Some 0)
  ∧ mkFix "drugs" (Drug.id d) "stock_quantity" (PyInt q) (PyInt 0)
      "Negative to zero" ∈ details report.
Proof.
  intros Hrun Hd Hq Hneg.
  pose proof (has_negative_stock_spec _ _ Hq Hneg) as Hbad.
  assert (mkFix "drugs" (Drug.id d) "stock_quantity" (PyInt q) (PyInt 0)
            "Negative to zero" ∈ (fix_negative_stock st).2) as Hfix.
  { unfold fix_negative_stock; cbn [snd]. apply list_elem_of_fmap.
    exists d. split; [by rewrite Hq|].
    apply elem_of_filter_bool. split; [|done].
    by apply list_elem_of_lookup; exists i. }
  rewrite fix_data_issues_unfold in Hrun; cbn zeta in Hrun.
  destruct (_ ++ _)%list as [|f fs] eqn:Hfixes.
  { apply app_eq_nil in Hfixes as [Hnil _]. rewrite Hnil in Hfix.
    by apply elem_of_nil in Hfix. }
  destruct commit_ok; [|discriminate]. injection Hrun as <- <-.
  split.
  - exists (set_stock 0 d). split; [|done].
    unfold fixed_store, fix_future_sales, fix_orphaned_sales,
      fix_negative_stock; cbn [fst drugs].
    by rewrite list_lookup_fmap, Hd; simpl; rewrite Hbad.
  - cbn [details]. rewrite <- Hfixes. apply elem_of_app. by left.
Qed.

Lemma fix_data_issues_clamps_negative_stock_witness :
  ∃ report st',
    fix_data_issues true 19783 example_store = (Ok report, st')
    ∧ (∃ d', drugs st' !! 0%nat = Some d'
             ∧ Drug.id d' = 1
             ∧ Drug.stock_quantity d' = Some 0)
    ∧ mkFix "drugs" 1 "stock_quantity" (PyInt (-5)) (PyInt 0)
        "Negative to zero" ∈ details report.
Proof.
  destruct (fix_data_issues true 19783 example_store) as [[report|e] st']
    eqn:Hrun; [|vm_compute in Hrun; discriminate Hrun].
  exists report, st'. split; [reflexivity|].
  exact (fix_data_issues_clamps_negative_stock true 19783 example_store
           report st' 0%nat
           (Drug.mk 1 (Some "DRG1") (Some "Aspirin") (Some "Bayer")
              (Some (12 # 1)) (Some (-5)) None)
           (-5) Hrun eq_refl eq_refl eq_refl).
Defined.

(** ** The chunked load *)

Open Scope Z_scope.







Section LoadChunks.
Context (sink_ok : nat → bool) (table_name : string) (df : DataFrame)
  (chunksize : Z).



End LoadChunks.

Section LoadTheorems.
Context (sink_ok : nat → bool) (chunksize : Z) (df : DataFrame)
  (table_name : string).




End LoadTheorems.


(** ** The table is replaced before the chunks are written *)

Section LoadReplaces.
Context (sink_ok : nat → bool) (table_name : string) (df : DataFrame)
  (chunksize : Z).






End LoadReplaces.

